(** * gradio/inputs.py: the deprecated input components

    The module defines fourteen classes.  Each one subclasses a class
    imported from [gradio.components]; its constructor issues a
    [DeprecationWarning] and then calls the constructor of its base class
    with keyword arguments.  [State] defines two more methods.

    Python values are an inductive type, the instance dictionary and the
    keyword arguments of a call are finite maps over strings, and the
    statements of a method body run in a small monad that threads the
    instance, may raise, and records what the method issues and calls.
    The classes of [gradio.components] are not part of this module: their
    methods are variables of the sections below. *)

From Stdlib Require Import ZArith.
From stdpp Require Import gmap strings list fin_maps.

Local Open Scope string_scope.
Set Warnings "-register-all".

(** ** Python values

    [None], booleans, integers, strings, lists and dictionaries with string
    keys are written out; any other object is [VObject], told apart by its
    identity. *)

Inductive value : Type :=
| VNone
| VBool (b : bool)
| VInt (n : Z)
| VStr (s : string)
| VList (xs : list value)
| VDict (d : gmap string value)
| VObject (id : positive).

(** The instance dictionary of [self], and the keyword arguments of a call. *)
Abbreviation attrs := (gmap string value) (only parsing).
Abbreviation kwargs := (gmap string value) (only parsing).

(** ** The names imported from gradio.components (lines 21-36) *)

Module components.

Inductive t : Type :=
| Audio
| Checkbox
| CheckboxGroup
| Component
| Dataframe
| Dropdown
| File
| Image
| Number
| Radio
| Slider
| State
| Textbox
| Timeseries.

Definition name (c : t) : string :=
  match c with
  | Audio => "Audio"
  | Checkbox => "Checkbox"
  | CheckboxGroup => "CheckboxGroup"
  | Component => "Component"
  | Dataframe => "Dataframe"
  | Dropdown => "Dropdown"
  | File => "File"
  | Image => "Image"
  | Number => "Number"
  | Radio => "Radio"
  | Slider => "Slider"
  | State => "State"
  | Textbox => "Textbox"
  | Timeseries => "Timeseries"
  end.

Definition imported : list t :=
  [Audio; Checkbox; CheckboxGroup; Component; Dataframe; Dropdown; File;
   Image; Number; Radio; Slider; State; Textbox; Timeseries].

End components.

(** ** The classes of the module, in the order of their definition *)

Inductive cls : Type :=
| Textbox
| Number
| Slider
| Checkbox
| CheckboxGroup
| Radio
| Dropdown
| Image
| Video
| Audio
| File
| Dataframe
| Timeseries
| State.

Definition classes : list cls :=
  [Textbox; Number; Slider; Checkbox; CheckboxGroup; Radio; Dropdown; Image;
   Video; Audio; File; Dataframe; Timeseries; State].

Definition class_name (c : cls) : string :=
  match c with
  | Textbox => "Textbox"
  | Number => "Number"
  | Slider => "Slider"
  | Checkbox => "Checkbox"
  | CheckboxGroup => "CheckboxGroup"
  | Radio => "Radio"
  | Dropdown => "Dropdown"
  | Image => "Image"
  | Video => "Video"
  | Audio => "Audio"
  | File => "File"
  | Dataframe => "Dataframe"
  | Timeseries => "Timeseries"
  | State => "State"
  end.

(** The base named in the class statement: [class Textbox(Textbox)] reads
    the imported [Textbox] before the name is rebound; [class
    Video(Component)] names [Component]. *)
Definition base (c : cls) : components.t :=
  match c with
  | Textbox => components.Textbox
  | Number => components.Number
  | Slider => components.Slider
  | Checkbox => components.Checkbox
  | CheckboxGroup => components.CheckboxGroup
  | Radio => components.Radio
  | Dropdown => components.Dropdown
  | Image => components.Image
  | Video => components.Component
  | Audio => components.Audio
  | File => components.File
  | Dataframe => components.Dataframe
  | Timeseries => components.Timeseries
  | State => components.State
  end.

(** The names bound by [def] in each class body. *)
Definition defined_methods (c : cls) : list string :=
  match c with
  | State => ["__init__"; "get_template_context"; "get_shortcut_implementations"]
  | _ => ["__init__"]
  end.

#[global] Instance cls_eq_dec : EqDecision cls.
Proof. solve_decision. Defined.

#[global] Instance components_eq_dec : EqDecision components.t.
Proof. solve_decision. Defined.

(** [d.update(m)], also what [{**d, **m}] builds: the entries of [m], and
    those of [d] whose key [m] does not have. *)
Definition dict_update (d m : gmap string value) : gmap string value := m ∪ d.

(** ** Warnings, exceptions and the monad of method bodies *)

Inductive category : Type :=
| DeprecationWarning
| OtherWarning (name : string).

Record warning : Type := Warning { message : string; warning_category : category }.

Record exn : Type := Exception { exn_type : string; exn_message : string }.

Inductive result (A : Type) : Type :=
| Return (a : A)
| Raise (e : exn).
Arguments Return {A} a.
Arguments Raise {A} e.

(** What a method of this module does that is visible from outside it: it
    issues a warning through [warnings.warn], or it calls a method of the
    base class through [super()], with the keyword arguments in the order
    they are written at the call. *)
Inductive event : Type :=
| Warned (w : warning)
| SuperCall (b : components.t) (method : string) (args : list (string * value)).

(** A method body: from the instance dictionary of [self] to an outcome,
    the instance dictionary afterwards, and the events in order.  An
    exception keeps the instance and the events up to the point it was
    raised. *)
Definition M (A : Type) : Type := attrs -> result A * attrs * list event.

Definition ret {A} (a : A) : M A := fun self => (Return a, self, []).

Definition raise {A} (e : exn) : M A := fun self => (Raise e, self, []).

Definition bind {A B} (m : M A) (k : A -> M B) : M B := fun self =>
  match m self with
  | (Return a, self1, log1) =>
      match k a self1 with
      | (r, self2, log2) => (r, self2, app log1 log2)
      end
  | (Raise e, self1, log1) => (Raise e, self1, log1)
  end.

Declare Scope py_scope.
Delimit Scope py_scope with py.
Notation "x <- m ;; k" := (bind m (fun x => k))
  (at level 100, m at next level, right associativity) : py_scope.
Notation "m ;; k" := (bind m (fun _ => k))
  (at level 100, right associativity) : py_scope.

(** [warnings.warn(message, category)] at the level of the call: the
    warning is issued.  What the interpreter's warning filters then do with
    an issued warning is not part of this module. *)
Definition warnings_warn (msg : string) (cat : category) : M unit := fun self =>
  (Return tt, self, [Warned (Warning msg cat)]).

(** What the warning filter in force does with a warning: the action
    ["error"] turns it into an exception, and under any other action
    (["default"], ["always"], ["module"], ["once"], ["ignore"]) the call of
    [warnings.warn] returns. *)
Inductive filter_action : Type :=
| ActionError
| ActionOther.

Definition category_name (cat : category) : string :=
  match cat with
  | DeprecationWarning => "DeprecationWarning"
  | OtherWarning name => name
  end.

(** [warnings.warn(message, category)] under a filter action: under
    ["error"] the call raises [category(message)] and nothing is issued;
    otherwise it is [warnings_warn]. *)
Definition warnings_warn_under (a : filter_action) (msg : string) (cat : category)
  : M unit :=
  match a with
  | ActionError => raise (Exception (category_name cat) msg)
  | ActionOther => warnings_warn msg cat
  end.

(** [self.name]: the instance attribute, [AttributeError] when there is none. *)
Definition getattr (name : string) : M value := fun self =>
  match self !! name with
  | Some v => (Return v, self, [])
  | None => (Raise (Exception "AttributeError" name), self, [])
  end.

Definition outcome {A} (run : result A * attrs * list event) : result A := run.1.1.
Definition instance {A} (run : result A * attrs * list event) : attrs := run.1.2.
Definition events {A} (run : result A * attrs * list event) : list event := run.2.

(** The warnings among the events, in order. *)
Fixpoint warnings_of (log : list event) : list warning :=
  match log with
  | [] => []
  | Warned w :: log' => w :: warnings_of log'
  | SuperCall _ _ _ :: log' => warnings_of log'
  end.

(** The calls through [super()] among the events, in order. *)
Fixpoint super_calls (log : list event)
  : list (components.t * string * list (string * value)) :=
  match log with
  | [] => []
  | Warned _ :: log' => super_calls log'
  | SuperCall b m args :: log' => (b, m, args) :: super_calls log'
  end.

(** The two messages of the module: lines 55 to 287 say "component", lines
    325 to 491 say "components". *)
Definition deprecation_message_component : string :=
  "Usage of gradio.inputs is deprecated, and will not be supported in the future, please import your component from gradio.components".

Definition deprecation_message_components : string :=
  "Usage of gradio.inputs is deprecated, and will not be supported in the future, please import your components from gradio.components".

(** ** Constructor invocations

    One constructor per class, carrying a value for every parameter of that
    class's [__init__], in the order of its signature: an [invocation] is a
    class together with an assignment of its constructor parameters, as the
    body finds them once the call's arguments are bound. *)

Inductive invocation : Type :=
| NewTextbox (lines placeholder default numeric type label optional : value)
| NewNumber (default label optional : value)
| NewSlider (minimum maximum step default label optional : value)
| NewCheckbox (default label optional : value)
| NewCheckboxGroup (choices default type label optional : value)
| NewRadio (choices type default label optional : value)
| NewDropdown (choices type default label optional : value)
| NewImage (shape image_mode invert_colors source tool type label optional : value)
| NewVideo (type source label optional : value)
| NewAudio (source type label optional : value)
| NewFile (file_count type label keep_filename optional : value)
| NewDataframe (headers row_count col_count datatype col_width default type
                label optional : value)
| NewTimeseries (x y label optional : value)
| NewState (label default optional : value).

Definition class_of (i : invocation) : cls :=
  match i with
  | NewTextbox _ _ _ _ _ _ _ => Textbox
  | NewNumber _ _ _ => Number
  | NewSlider _ _ _ _ _ _ => Slider
  | NewCheckbox _ _ _ => Checkbox
  | NewCheckboxGroup _ _ _ _ _ => CheckboxGroup
  | NewRadio _ _ _ _ _ => Radio
  | NewDropdown _ _ _ _ _ => Dropdown
  | NewImage _ _ _ _ _ _ _ _ => Image
  | NewVideo _ _ _ _ => Video
  | NewAudio _ _ _ _ => Audio
  | NewFile _ _ _ _ _ => File
  | NewDataframe _ _ _ _ _ _ _ _ _ => Dataframe
  | NewTimeseries _ _ _ _ => Timeseries
  | NewState _ _ _ => State
  end.

(** The parameters of each [__init__] after [self], in the order of the
    signature, each with its default ([None] here: the parameter is
    required). *)
Definition signature (c : cls) : list (string * option value) :=
  match c with
  | Textbox =>
      [("lines", Some (VInt 1)); ("placeholder", Some VNone);
       ("default", Some (VStr "")); ("numeric", Some (VBool false));
       ("type", Some (VStr "str")); ("label", Some VNone);
       ("optional", Some (VBool false))]
  | Number =>
      [("default", Some VNone); ("label", Some VNone);
       ("optional", Some (VBool false))]
  | Slider =>
      [("minimum", Some (VInt 0)); ("maximum", Some (VInt 100));
       ("step", Some VNone); ("default", Some VNone); ("label", Some VNone);
       ("optional", Some (VBool false))]
  | Checkbox =>
      [("default", Some (VBool false)); ("label", Some VNone);
       ("optional", Some (VBool false))]
  | CheckboxGroup =>
      [("choices", None); ("default", Some (VList []));
       ("type", Some (VStr "value")); ("label", Some VNone);
       ("optional", Some (VBool false))]
  | Radio | Dropdown =>
      [("choices", None); ("type", Some (VStr "value"));
       ("default", Some VNone); ("label", Some VNone);
       ("optional", Some (VBool false))]
  | Image =>
      [("shape", Some VNone); ("image_mode", Some (VStr "RGB"));
       ("invert_colors", Some (VBool false)); ("source", Some (VStr "upload"));
       ("tool", Some (VStr "editor")); ("type", Some (VStr "numpy"));
       ("label", Some VNone); ("optional", Some (VBool false))]
  | Video =>
      [("type", Some VNone); ("source", Some (VStr "upload"));
       ("label", Some VNone); ("optional", Some (VBool false))]
  | Audio =>
      [("source", Some (VStr "upload")); ("type", Some (VStr "numpy"));
       ("label", Some VNone); ("optional", Some (VBool false))]
  | File =>
      [("file_count", Some (VStr "single")); ("type", Some (VStr "file"));
       ("label", Some VNone); ("keep_filename", Some (VBool true));
       ("optional", Some (VBool false))]
  | Dataframe =>
      [("headers", Some VNone); ("row_count", Some (VInt 3));
       ("col_count", Some (VInt 3)); ("datatype", Some (VStr "str"));
       ("col_width", Some VNone); ("default", Some VNone);
       ("type", Some (VStr "pandas")); ("label", Some VNone);
       ("optional", Some (VBool false))]
  | Timeseries =>
      [("x", Some VNone); ("y", Some VNone); ("label", Some VNone);
       ("optional", Some (VBool false))]
  | State =>
      [("label", Some VNone); ("default", Some VNone);
       ("optional", Some (VBool false))]
  end.

Definition parameters (c : cls) : list string := (signature c).*1.

(** The values of an invocation, in the order of the signature. *)
Definition arguments (i : invocation) : list value :=
  match i with
  | NewTextbox lines placeholder default numeric type label optional =>
      [lines; placeholder; default; numeric; type; label; optional]
  | NewNumber default label optional => [default; label; optional]
  | NewSlider minimum maximum step default label optional =>
      [minimum; maximum; step; default; label; optional]
  | NewCheckbox default label optional => [default; label; optional]
  | NewCheckboxGroup choices default type label optional =>
      [choices; default; type; label; optional]
  | NewRadio choices type default label optional =>
      [choices; type; default; label; optional]
  | NewDropdown choices type default label optional =>
      [choices; type; default; label; optional]
  | NewImage shape image_mode invert_colors source tool type label optional =>
      [shape; image_mode; invert_colors; source; tool; type; label; optional]
  | NewVideo type source label optional => [type; source; label; optional]
  | NewAudio source type label optional => [source; type; label; optional]
  | NewFile file_count type label keep_filename optional =>
      [file_count; type; label; keep_filename; optional]
  | NewDataframe headers row_count col_count datatype col_width default type
      label optional =>
      [headers; row_count; col_count; datatype; col_width; default; type;
       label; optional]
  | NewTimeseries x y label optional => [x; y; label; optional]
  | NewState label default optional => [label; default; optional]
  end.

(** What the constructor received: every parameter name with its value. *)
Definition received (i : invocation) : list (string * value) :=
  zip (parameters (class_of i)) (arguments i).

(** ** Binding the arguments of a call

    Positional arguments fill the parameters from the left; a keyword
    argument fills the parameter of its name; a parameter left over takes
    its default.  Too many positional arguments, an unknown keyword, a
    parameter given twice or a required parameter left out is a
    [TypeError]. *)

Definition type_error : exn := Exception "TypeError" "__init__() arguments".

Definition result_map {A B} (f : A -> B) (r : result A) : result B :=
  match r with
  | Return a => Return (f a)
  | Raise e => Raise e
  end.

Fixpoint bind_arguments (sig : list (string * option value))
    (pos : list value) (kw : kwargs) : result (list value) :=
  match sig with
  | [] =>
      match pos with
      | [] => if bool_decide (dom kw = ∅) then Return [] else Raise type_error
      | _ :: _ => Raise type_error
      end
  | (p, dflt) :: sig' =>
      match pos with
      | v :: pos' =>
          match kw !! p with
          | Some _ => Raise type_error
          | None => result_map (cons v) (bind_arguments sig' pos' kw)
          end
      | [] =>
          match kw !! p, dflt with
          | Some v, _ => result_map (cons v) (bind_arguments sig' [] (delete p kw))
          | None, Some v => result_map (cons v) (bind_arguments sig' [] kw)
          | None, None => Raise type_error
          end
      end
  end.

(** The invocation of class [c] whose parameters have the values [vs], in
    the order of the signature. *)
Definition invocation_of (c : cls) (vs : list value) : option invocation :=
  match c, vs with
  | Textbox, [lines; placeholder; default; numeric; type; label; optional] =>
      Some (NewTextbox lines placeholder default numeric type label optional)
  | Number, [default; label; optional] => Some (NewNumber default label optional)
  | Slider, [minimum; maximum; step; default; label; optional] =>
      Some (NewSlider minimum maximum step default label optional)
  | Checkbox, [default; label; optional] => Some (NewCheckbox default label optional)
  | CheckboxGroup, [choices; default; type; label; optional] =>
      Some (NewCheckboxGroup choices default type label optional)
  | Radio, [choices; type; default; label; optional] =>
      Some (NewRadio choices type default label optional)
  | Dropdown, [choices; type; default; label; optional] =>
      Some (NewDropdown choices type default label optional)
  | Image, [shape; image_mode; invert_colors; source; tool; type; label; optional] =>
      Some (NewImage shape image_mode invert_colors source tool type label optional)
  | Video, [type; source; label; optional] => Some (NewVideo type source label optional)
  | Audio, [source; type; label; optional] => Some (NewAudio source type label optional)
  | File, [file_count; type; label; keep_filename; optional] =>
      Some (NewFile file_count type label keep_filename optional)
  | Dataframe, [headers; row_count; col_count; datatype; col_width; default; type;
                label; optional] =>
      Some (NewDataframe headers row_count col_count datatype col_width default
              type label optional)
  | Timeseries, [x; y; label; optional] => Some (NewTimeseries x y label optional)
  | State, [label; default; optional] => Some (NewState label default optional)
  | _, _ => None
  end.

(** The warning every constructor of class [c] is written to issue. *)
Definition deprecation_warning (c : cls) : warning :=
  match c with
  | Textbox | Number | Slider | Checkbox | CheckboxGroup | Radio | Dropdown
  | Image =>
      Warning deprecation_message_component DeprecationWarning
  | Video | Audio | File | Dataframe | Timeseries | State =>
      Warning deprecation_message_components DeprecationWarning
  end.

(** ** The methods of the module *)

Section Inputs.

(** The classes of [gradio.components] are outside this module.  A method
    of a base class is taken as a function of the keyword arguments it is
    called with and of the instance dictionary; it may raise, update the
    instance and issue warnings of its own. *)
Variable components__init__ :
  components.t -> kwargs -> attrs -> result unit * attrs * list warning.
Variable components_get_template_context :
  components.t -> attrs -> result value * attrs * list warning.

(** [super().__init__(k1=v1, ..., kn=vn)] inside class [c]. *)
Definition super__init__ (c : cls) (args : list (string * value)) : M unit :=
  fun self =>
    match components__init__ (base c) (list_to_map args) self with
    | (r, self', ws) => (r, self', SuperCall (base c) "__init__" args :: map Warned ws)
    end.

(** [super().get_template_context()] inside class [c]. *)
Definition super_get_template_context (c : cls) : M value :=
  fun self =>
    match components_get_template_context (base c) self with
    | (r, self', ws) =>
        (r, self', SuperCall (base c) "get_template_context" [] :: map Warned ws)
    end.

Local Open Scope py_scope.

(** The fourteen [__init__] bodies (lines 43-494). *)
Definition __init__ (i : invocation) : M unit :=
  match i with
  | NewTextbox lines placeholder default numeric type label optional =>
      warnings_warn deprecation_message_component DeprecationWarning ;;
      super__init__ Textbox
        [("lines", lines); ("placeholder", placeholder); ("default", default);
         ("numeric", numeric); ("type", type); ("label", label);
         ("optional", optional)]
  | NewNumber default label optional =>
      warnings_warn deprecation_message_component DeprecationWarning ;;
      super__init__ Number
        [("default", default); ("label", label); ("optional", optional)]
  | NewSlider minimum maximum step default label optional =>
      warnings_warn deprecation_message_component DeprecationWarning ;;
      super__init__ Slider
        [("label", label); ("minimum", minimum); ("maximum", maximum);
         ("step", step); ("default", default); ("optional", optional)]
  | NewCheckbox default label optional =>
      warnings_warn deprecation_message_component DeprecationWarning ;;
      super__init__ Checkbox
        [("label", label); ("default", default); ("optional", optional)]
  | NewCheckboxGroup choices default type label optional =>
      warnings_warn deprecation_message_component DeprecationWarning ;;
      super__init__ CheckboxGroup
        [("choices", choices); ("default", default); ("type", type);
         ("label", label); ("optional", optional)]
  | NewRadio choices type default label optional =>
      warnings_warn deprecation_message_component DeprecationWarning ;;
      super__init__ Radio
        [("choices", choices); ("type", type); ("default", default);
         ("label", label); ("optional", optional)]
  | NewDropdown choices type default label optional =>
      warnings_warn deprecation_message_component DeprecationWarning ;;
      super__init__ Dropdown
        [("choices", choices); ("type", type); ("default", default);
         ("label", label); ("optional", optional)]
  | NewImage shape image_mode invert_colors source tool type label optional =>
      warnings_warn deprecation_message_component DeprecationWarning ;;
      super__init__ Image
        [("shape", shape); ("image_mode", image_mode);
         ("invert_colors", invert_colors); ("source", source); ("tool", tool);
         ("type", type); ("label", label); ("optional", optional)]
  | NewVideo type source label optional =>
      warnings_warn deprecation_message_components DeprecationWarning ;;
      super__init__ Video
        [("type", type); ("source", source); ("label", label);
         ("optional", optional)]
  | NewAudio source type label optional =>
      warnings_warn deprecation_message_components DeprecationWarning ;;
      super__init__ Audio
        [("source", source); ("type", type); ("label", label);
         ("optional", optional)]
  | NewFile file_count type label keep_filename optional =>
      warnings_warn deprecation_message_components DeprecationWarning ;;
      super__init__ File
        [("file_count", file_count); ("type", type); ("label", label);
         ("keep_filename", keep_filename); ("optional", optional)]
  | NewDataframe headers row_count col_count datatype col_width default type
      label optional =>
      warnings_warn deprecation_message_components DeprecationWarning ;;
      super__init__ Dataframe
        [("headers", headers); ("row_count", row_count);
         ("col_count", col_count); ("datatype", datatype);
         ("col_width", col_width); ("default", default); ("type", type);
         ("label", label); ("optional", optional)]
  | NewTimeseries x y label optional =>
      warnings_warn deprecation_message_components DeprecationWarning ;;
      super__init__ Timeseries
        [("x", x); ("y", y); ("label", label); ("optional", optional)]
  | NewState label default optional =>
      warnings_warn deprecation_message_components DeprecationWarning ;;
      super__init__ State
        [("label", label); ("default", default); ("optional", optional)]
  end.

(** [State.get_template_context] (lines 496-497): the dictionary display
    [{"default": self.default, **super().get_template_context()}].  The
    display evaluates [self.default] first, then the call; the unpacked
    mapping is written over the entry made for ["default"].  Unpacking
    [None], a boolean, an integer, a string or a list is a [TypeError].
    Whether an opaque object is a mapping the values do not tell: the
    branch for [VObject] stands for one that is not, and no property below
    depends on its outcome. *)
Definition get_template_context : M value :=
  d <- getattr "default" ;;
  ctx <- super_get_template_context State ;;
  match ctx with
  | VDict parent => ret (VDict (parent ∪ {["default" := d]}))
  | _ => raise (Exception "TypeError" "object is not a mapping")
  end.

(** [State.get_shortcut_implementations] (lines 499-503), a class method. *)
Definition get_shortcut_implementations : value :=
  VDict {["state" := VDict ∅]}.



(** [Cls.__init__(self, *pos, **kw)]: the arguments are bound first, and a
    call that does not fit the signature raises before the body runs. *)
Definition call__init__ (c : cls) (pos : list value) (kw : kwargs) : M unit :=
  match bind_arguments (signature c) pos kw with
  | Raise e => raise e
  | Return vs =>
      match invocation_of c vs with
      | Some i => __init__ i
      | None => raise type_error
      end
  end.

(** The same fourteen bodies with the warning filter in view: [a] is the
    action the filter takes for the warning the body issues.  Under
    ["error"] the body stops at [warnings.warn]. *)
Definition __init__under (a : filter_action) (i : invocation) : M unit :=
  match i with
  | NewTextbox lines placeholder default numeric type label optional =>
      warnings_warn_under a deprecation_message_component DeprecationWarning ;;
      super__init__ Textbox
        [("lines", lines); ("placeholder", placeholder); ("default", default);
         ("numeric", numeric); ("type", type); ("label", label);
         ("optional", optional)]
  | NewNumber default label optional =>
      warnings_warn_under a deprecation_message_component DeprecationWarning ;;
      super__init__ Number
        [("default", default); ("label", label); ("optional", optional)]
  | NewSlider minimum maximum step default label optional =>
      warnings_warn_under a deprecation_message_component DeprecationWarning ;;
      super__init__ Slider
        [("label", label); ("minimum", minimum); ("maximum", maximum);
         ("step", step); ("default", default); ("optional", optional)]
  | NewCheckbox default label optional =>
      warnings_warn_under a deprecation_message_component DeprecationWarning ;;
      super__init__ Checkbox
        [("label", label); ("default", default); ("optional", optional)]
  | NewCheckboxGroup choices default type label optional =>
      warnings_warn_under a deprecation_message_component DeprecationWarning ;;
      super__init__ CheckboxGroup
        [("choices", choices); ("default", default); ("type", type);
         ("label", label); ("optional", optional)]
  | NewRadio choices type default label optional =>
      warnings_warn_under a deprecation_message_component DeprecationWarning ;;
      super__init__ Radio
        [("choices", choices); ("type", type); ("default", default);
         ("label", label); ("optional", optional)]
  | NewDropdown choices type default label optional =>
      warnings_warn_under a deprecation_message_component DeprecationWarning ;;
      super__init__ Dropdown
        [("choices", choices); ("type", type); ("default", default);
         ("label", label); ("optional", optional)]
  | NewImage shape image_mode invert_colors source tool type label optional =>
      warnings_warn_under a deprecation_message_component DeprecationWarning ;;
      super__init__ Image
        [("shape", shape); ("image_mode", image_mode);
         ("invert_colors", invert_colors); ("source", source); ("tool", tool);
         ("type", type); ("label", label); ("optional", optional)]
  | NewVideo type source label optional =>
      warnings_warn_under a deprecation_message_components DeprecationWarning ;;
      super__init__ Video
        [("type", type); ("source", source); ("label", label);
         ("optional", optional)]
  | NewAudio source type label optional =>
      warnings_warn_under a deprecation_message_components DeprecationWarning ;;
      super__init__ Audio
        [("source", source); ("type", type); ("label", label);
         ("optional", optional)]
  | NewFile file_count type label keep_filename optional =>
      warnings_warn_under a deprecation_message_components DeprecationWarning ;;
      super__init__ File
        [("file_count", file_count); ("type", type); ("label", label);
         ("keep_filename", keep_filename); ("optional", optional)]
  | NewDataframe headers row_count col_count datatype col_width default type
      label optional =>
      warnings_warn_under a deprecation_message_components DeprecationWarning ;;
      super__init__ Dataframe
        [("headers", headers); ("row_count", row_count);
         ("col_count", col_count); ("datatype", datatype);
         ("col_width", col_width); ("default", default); ("type", type);
         ("label", label); ("optional", optional)]
  | NewTimeseries x y label optional =>
      warnings_warn_under a deprecation_message_components DeprecationWarning ;;
      super__init__ Timeseries
        [("x", x); ("y", y); ("label", label); ("optional", optional)]
  | NewState label default optional =>
      warnings_warn_under a deprecation_message_components DeprecationWarning ;;
      super__init__ State
        [("label", label); ("default", default); ("optional", optional)]
  end.

(** [Cls.__init__(self, *pos, **kw)] with the warning filter in view. *)
Definition call__init__under (a : filter_action) (c : cls) (pos : list value)
    (kw : kwargs) : M unit :=
  match bind_arguments (signature c) pos kw with
  | Raise e => raise e
  | Return vs =>
      match invocation_of c vs with
      | Some i => __init__under a i
      | None => raise type_error
      end
  end.

End Inputs.

(** ** Sample data for the examples

    A base class that keeps its keyword arguments as instance attributes
    and refuses an [optional] that is not a boolean, a template context
    with two entries, and one invocation per class with pairwise different
    argument values. *)

Definition example__init__ (b : components.t) (kw : kwargs) (self : attrs)
  : result unit * attrs * list warning :=
  match kw !! "optional" with
  | Some (VBool _) => (Return tt, kw ∪ self, [])
  | _ => (Raise (Exception "TypeError" "optional must be a bool"), self, [])
  end.

(** A base class that accepts any keyword arguments and never raises. *)
Definition quiet__init__ (b : components.t) (kw : kwargs) (self : attrs)
  : result unit * attrs * list warning :=
  (Return tt, kw ∪ self, []).

Definition example_get_template_context (b : components.t) (self : attrs)
  : result value * attrs * list warning :=
  (Return (VDict {["name" := VStr "state"; "label" := VNone]}), self, []).

Definition example_invocation (c : cls) : invocation :=
  match c with
  | Textbox =>
      NewTextbox (VInt 0) (VInt 1) (VInt 2) (VInt 3) (VInt 4) (VInt 5) (VInt 6)
  | Number => NewNumber (VInt 0) (VInt 1) (VInt 2)
  | Slider => NewSlider (VInt 0) (VInt 1) (VInt 2) (VInt 3) (VInt 4) (VInt 5)
  | Checkbox => NewCheckbox (VInt 0) (VInt 1) (VInt 2)
  | CheckboxGroup => NewCheckboxGroup (VInt 0) (VInt 1) (VInt 2) (VInt 3) (VInt 4)
  | Radio => NewRadio (VInt 0) (VInt 1) (VInt 2) (VInt 3) (VInt 4)
  | Dropdown => NewDropdown (VInt 0) (VInt 1) (VInt 2) (VInt 3) (VInt 4)
  | Image =>
      NewImage (VInt 0) (VInt 1) (VInt 2) (VInt 3) (VInt 4) (VInt 5) (VInt 6)
        (VInt 7)
  | Video => NewVideo (VInt 0) (VInt 1) (VInt 2) (VInt 3)
  | Audio => NewAudio (VInt 0) (VInt 1) (VInt 2) (VInt 3)
  | File => NewFile (VInt 0) (VInt 1) (VInt 2) (VInt 3) (VInt 4)
  | Dataframe =>
      NewDataframe (VInt 0) (VInt 1) (VInt 2) (VInt 3) (VInt 4) (VInt 5)
        (VInt 6) (VInt 7) (VInt 8)
  | Timeseries => NewTimeseries (VInt 0) (VInt 1) (VInt 2) (VInt 3)
  | State => NewState (VInt 0) (VInt 1) (VInt 2)
  end.

(** The events of a method up to its first call through [super()]: what
    the method did on its own before it handed over to the base class. *)
Fixpoint before_super_call (log : list event) : list event :=
  match log with
  | [] => []
  | Warned w :: log' => Warned w :: before_super_call log'
  | SuperCall _ _ _ :: _ => []
  end.

(** The values that are certainly no mappings: unpacking one with [**] is a
    [TypeError].  A [VDict] is a mapping; an opaque object may be one. *)
Definition not_a_mapping (v : value) : bool :=
  match v with
  | VNone | VBool _ | VInt _ | VStr _ | VList _ => true
  | VDict _ | VObject _ => false
  end.

(** When a call fits a signature: no more positional arguments than
    parameters; every keyword names a parameter that no positional argument
    fills; every parameter without a default is given. *)
Definition fits (sig : list (string * option value)) (pos : list value)
    (kw : kwargs) : Prop :=
  length pos <= length sig
  /\ (forall p, is_Some (kw !! p) -> p ∈ drop (length pos) sig.*1)
  /\ (forall p, (p, None) ∈ drop (length pos) sig -> is_Some (kw !! p)).

(** * Properties *)

(** ** The class table *)

Lemma parameters_NoDup (c : cls) : NoDup (parameters c).
Proof. destruct c; apply (bool_decide_unpack _); vm_compute; exact I. Qed.

Lemma received_keys (i : invocation) : (received i).*1 = parameters (class_of i).
Proof. destruct i; reflexivity. Qed.

Lemma class_of_example (c : cls) : class_of (example_invocation c) = c.
Proof. destruct c; reflexivity. Qed.

Lemma invocation_of_arguments (i : invocation) :
  invocation_of (class_of i) (arguments i) = Some i.
Proof. destruct i; reflexivity. Qed.

Lemma bind_arguments_length sig : forall pos kw vs,
  bind_arguments sig pos kw = Return vs -> length vs = length sig.
Proof.
  induction sig as [|[p dflt] sig IH]; intros pos kw vs; simpl.
  - destruct pos; [case_bool_decide|]; try discriminate.
    intros [= <-]; reflexivity.
  - destruct pos as [|v pos].
    + destruct (kw !! p) as [v|], dflt as [d|]; try discriminate;
        match goal with
        | |- result_map _ ?r = _ -> _ =>
            destruct r as [ws|] eqn:E; simpl; intros [= <-]; simpl;
            f_equal; exact (IH _ _ _ E)
        end.
    + destruct (kw !! p); [discriminate|].
      destruct (bind_arguments sig pos kw) as [ws|] eqn:E; simpl; intros [= <-].
      simpl; f_equal; exact (IH _ _ _ E).
Qed.

Lemma invocation_of_length (c : cls) (vs : list value) :
  length vs = length (signature c) -> exists i, invocation_of c vs = Some i.
Proof.
  intros Hlen.
  destruct c; simpl in Hlen;
    do 10 (try destruct vs as [|? vs]; try discriminate Hlen);
    eexists; reflexivity.
Qed.

Lemma invocation_of_Some (c : cls) (vs : list value) (i : invocation) :
  invocation_of c vs = Some i -> class_of i = c /\ arguments i = vs.
Proof.
  destruct c; simpl;
    do 10 (try destruct vs as [|? vs]; try discriminate);
    intros [= <-]; split; reflexivity.
Qed.

(** C8: the module defines exactly fourteen classes: the list of its class
    statements has fourteen entries, names every class once, and no two of
    them bind the same name. *)
Theorem module_defines_fourteen_classes :
  length classes = 14
  /\ NoDup classes
  /\ (forall c : cls, c ∈ classes)
  /\ NoDup (class_name <$> classes).
Proof.
  repeat split.
  - apply (bool_decide_unpack _); vm_compute; exact I.
  - intros c; destruct c; unfold classes; set_solver.
  - apply (bool_decide_unpack _); vm_compute; exact I.
Qed.

(** C3, as stated, fails: [State] defines two methods besides its
    constructor. *)
Lemma State_defines_more_than_its_constructor :
  ~ (forall c : cls, defined_methods c = ["__init__"]).
Proof. intros H. specialize (H State). discriminate H. Qed.

(** C4, as stated, fails: [Video] subclasses [Component], and no class named
    [Video] is imported from gradio.components. *)
Lemma Video_does_not_subclass_a_component_of_its_name :
  ~ (forall c : cls, components.name (base c) = class_name c).
Proof. intros H. specialize (H Video). discriminate H. Qed.

(** ** The constructors, against any base classes *)

Lemma warnings_of_warned (ws : list warning) : warnings_of (map Warned ws) = ws.
Proof. induction ws as [|w ws IH]; simpl; congruence. Qed.

Lemma super_calls_warned (ws : list warning) : super_calls (map Warned ws) = [].
Proof. induction ws as [|w ws IH]; simpl; congruence. Qed.

Lemma forwarded_map (args received : list (string * value)) :
  NoDup received.*1 -> args ≡ₚ received ->
  (list_to_map args : gmap string value) = list_to_map received.
Proof.
  intros Hnd Hperm. apply list_to_map_proper; [|exact Hperm].
  rewrite Hperm. exact Hnd.
Qed.

Section Properties.

Variable components__init__ :
  components.t -> kwargs -> attrs -> result unit * attrs * list warning.
Variable components_get_template_context :
  components.t -> attrs -> result value * attrs * list warning.

Lemma warn_then_super msg cat c args self :
  bind (warnings_warn msg cat)
       (fun _ => super__init__ components__init__ c args) self =
    match components__init__ (base c) (list_to_map args) self with
    | (r, self', ws) =>
        (r, self',
         Warned (Warning msg cat)
           :: SuperCall (base c) "__init__" args :: map Warned ws)
    end.
Proof.
  unfold bind, warnings_warn, super__init__.
  destruct (components__init__ (base c) (list_to_map args) self) as [[r self'] ws].
  reflexivity.
Qed.

(** Every constructor at once: one warning, the call of the base
    constructor with the received arguments as keywords, and then only what
    the base constructor does. *)
Lemma init_run (i : invocation) (self : attrs) :
  exists args : list (string * value),
    args ≡ₚ received i /\
    __init__ components__init__ i self =
      match components__init__ (base (class_of i)) (list_to_map args) self with
      | (r, self', ws) =>
          (r, self',
           Warned (deprecation_warning (class_of i))
             :: SuperCall (base (class_of i)) "__init__" args :: map Warned ws)
      end.
Proof.
  destruct i; simpl; eexists; (split; [| apply warn_then_super]);
    unfold received; simpl; solve_Permutation.
Qed.

Lemma init_run_received (i : invocation) (self : attrs) :
  exists args : list (string * value),
    args ≡ₚ received i /\
    __init__ components__init__ i self =
      match components__init__ (base (class_of i)) (list_to_map (received i)) self with
      | (r, self', ws) =>
          (r, self',
           Warned (deprecation_warning (class_of i))
             :: SuperCall (base (class_of i)) "__init__" args :: map Warned ws)
      end.
Proof.
  destruct (init_run i self) as (args & Hperm & Hrun).
  exists args; split; [exact Hperm|].
  rewrite Hrun, (forwarded_map args (received i)); [reflexivity| |exact Hperm].
  rewrite received_keys. apply parameters_NoDup.
Qed.


(** C2: the events of every constructor run are, in this order, the
    deprecation warning of the class, of category [DeprecationWarning], the
    call of the base constructor, and then what that call itself issues:
    the constructor issues one warning, and issues it before it delegates. *)
Theorem init_warns_then_delegates (i : invocation) (self : attrs) :
  exists args : list (string * value),
    events (__init__ components__init__ i self)
      = Warned (deprecation_warning (class_of i))
          :: SuperCall (base (class_of i)) "__init__" args
          :: map Warned (components__init__ (base (class_of i)) (list_to_map args) self).2
    /\ warning_category (deprecation_warning (class_of i)) = DeprecationWarning.
Proof.
  destruct (init_run i self) as (args & _ & Hrun).
  exists args. split.
  - rewrite Hrun.
    by destruct (components__init__ _ _ self) as [[r self'] ws].
  - by destruct i.
Qed.


(** Once the arguments are bound and [warnings.warn] has returned, the
    body raises an exception exactly when the base constructor raises it on
    the same arguments; it leaves the instance as the base constructor
    leaves it; and the warnings are the deprecation warning followed by the
    base constructor's own. *)
Lemma init_raises_iff_component_raises (i : invocation) (self : attrs) :
  (forall e : exn,
      outcome (__init__ components__init__ i self) = Raise e
      <-> (components__init__ (base (class_of i)) (list_to_map (received i)) self).1.1
          = Raise e)
  /\ instance (__init__ components__init__ i self)
     = (components__init__ (base (class_of i)) (list_to_map (received i)) self).1.2
  /\ warnings_of (events (__init__ components__init__ i self))
     = deprecation_warning (class_of i)
         :: (components__init__ (base (class_of i)) (list_to_map (received i)) self).2.
Proof.
  destruct (init_run_received i self) as (args & _ & ->).
  destruct (components__init__ _ _ self) as [[r self'] ws].
  unfold outcome, instance, events; simpl.
  by rewrite warnings_of_warned.
Qed.

(** C9: two constructor calls of one class issue the same deprecation
    warning whatever their arguments and instances: what either does before
    it hands over to the base class is that one warning, which the class
    alone determines. *)
Theorem warning_independent_of_arguments (i1 i2 : invocation) (self1 self2 : attrs) :
  class_of i1 = class_of i2 ->
  before_super_call (events (__init__ components__init__ i1 self1))
    = before_super_call (events (__init__ components__init__ i2 self2))
  /\ before_super_call (events (__init__ components__init__ i1 self1))
    = [Warned (deprecation_warning (class_of i1))].
Proof.
  intros Hc.
  destruct (init_run i1 self1) as (args1 & _ & ->).
  destruct (init_run i2 self2) as (args2 & _ & ->).
  rewrite Hc.
  destruct (components__init__ _ _ self1) as [[r1 s1] ws1].
  destruct (components__init__ _ _ self2) as [[r2 s2] ws2].
  by unfold events.
Qed.

(** C3, amended: [State] is the one class that defines more than its
    constructor, namely [get_template_context] and
    [get_shortcut_implementations]; and every constructor, [State]'s too, is
    the deprecation warning followed by the call of the base constructor. *)
Theorem only_State_defines_more_than_its_constructor :
  (forall c : cls, defined_methods c = ["__init__"] <-> c <> State)
  /\ defined_methods State
     = ["__init__"; "get_template_context"; "get_shortcut_implementations"]
  /\ (forall i : invocation, exists args : list (string * value),
        __init__ components__init__ i =
          bind (warnings_warn (message (deprecation_warning (class_of i)))
                  DeprecationWarning)
               (fun _ => super__init__ components__init__ (class_of i) args)).
Proof.
  split; [|split].
  - intros c; destruct c; simpl; split; congruence.
  - reflexivity.
  - intros i; destruct i; eexists; reflexivity.
Qed.

(** C4, amended: every class but [Video] subclasses the imported class of
    its own name; [Video] subclasses [Component], and no imported class is
    named [Video]; every base is one of the imported classes, and every
    constructor delegates to the constructor of its class's base. *)
Theorem every_class_but_Video_subclasses_its_namesake :
  (forall c : cls, components.name (base c) = class_name c <-> c <> Video)
  /\ base Video = components.Component
  /\ ("Video" ∉ components.name <$> components.imported)
  /\ (forall c : cls, base c ∈ components.imported)
  /\ (forall (i : invocation) (self : attrs), exists args : list (string * value),
        super_calls (events (__init__ components__init__ i self))
          = [(base (class_of i), "__init__", args)]).
Proof.
  split; [|split; [|split; [|split]]].
  - intros c; destruct c; simpl; split; congruence.
  - reflexivity.
  - apply (bool_decide_unpack _); vm_compute; exact I.
  - intros c; destruct c; apply (bool_decide_unpack _); vm_compute; exact I.
  - intros i self. destruct (init_run i self) as (args & _ & ->).
    exists args. destruct (components__init__ _ _ self) as [[r self'] ws].
    unfold events; simpl. by rewrite super_calls_warned.
Qed.

(** C6, amended: no constructor renames a parameter.  The keywords of the
    call of the base constructor are the names of the parameters, each once,
    and each keyword carries the value received for the parameter of that
    name. *)
Theorem init_keeps_every_parameter_name (i : invocation) (self : attrs) :
  exists args : list (string * value),
    super_calls (events (__init__ components__init__ i self))
      = [(base (class_of i), "__init__", args)]
    /\ args.*1 ≡ₚ parameters (class_of i)
    /\ Forall (fun kv => kv ∈ received i) args.
Proof.
  destruct (init_run i self) as (args & Hperm & Hrun).
  exists args. split; [|split].
  - rewrite Hrun. destruct (components__init__ _ _ self) as [[r self'] ws].
    unfold events; simpl. by rewrite super_calls_warned.
  - by rewrite Hperm, received_keys.
  - apply Forall_forall. intros kv Hkv. by rewrite <- Hperm.
Qed.

(** C10: when [self.default] is [d] and the base class's
    [get_template_context] returns the dictionary [parent],
    [State.get_template_context] returns a dictionary with every entry of
    [parent] unchanged, whose keys are those of [parent] and ["default"],
    and where ["default"] maps to [d] unless [parent] has that key, whose
    value then stands. *)
Theorem get_template_context_extends_parent
    (self self' : attrs) (d : value) (parent : gmap string value)
    (ws : list warning) :
  self !! "default" = Some d ->
  components_get_template_context components.State self
    = (Return (VDict parent), self', ws) ->
  exists ctx : gmap string value,
    outcome (get_template_context components_get_template_context self)
      = Return (VDict ctx)
    /\ (forall k v, parent !! k = Some v -> ctx !! k = Some v)
    /\ (forall k, k <> "default" -> ctx !! k = parent !! k)
    /\ (parent !! "default" = None -> ctx !! "default" = Some d)
    /\ dom ctx = {["default"]} ∪ dom parent.
Proof.
  intros Hd Hparent.
  exists (dict_update {["default" := d]} parent).
  split; [|split; [|split; [|split]]].
  - unfold get_template_context, bind, getattr, super_get_template_context.
    rewrite Hd; simpl. rewrite Hparent. reflexivity.
  - intros k v Hk. unfold dict_update. by apply lookup_union_Some_l.
  - intros k Hk. unfold dict_update. rewrite lookup_union.
    rewrite lookup_singleton_ne by congruence.
    by destruct (parent !! k).
  - intros Hnone. unfold dict_update. rewrite lookup_union_r by exact Hnone.
    apply lookup_singleton_eq.
  - unfold dict_update. rewrite dom_union_L, dom_singleton_L.
    apply (comm_L (∪)).
Qed.

End Properties.

(** ** Calls: from the arguments of a call to the invocation *)

Section Calls.

Variable components__init__ :
  components.t -> kwargs -> attrs -> result unit * attrs * list warning.

(** A call whose arguments bind runs the body on the bound invocation. *)
Lemma call_bound (c : cls) (pos : list value) (kw : kwargs) (vs : list value) :
  bind_arguments (signature c) pos kw = Return vs ->
  exists i : invocation,
    class_of i = c /\ arguments i = vs /\
    call__init__ components__init__ c pos kw = __init__ components__init__ i.
Proof.
  intros Hbind. pose proof (bind_arguments_length _ _ _ _ Hbind) as Hlen.
  destruct (invocation_of_length c vs Hlen) as [i Hi].
  destruct (invocation_of_Some c vs i Hi) as [Hc Hvs].
  exists i. split; [exact Hc|split; [exact Hvs|]].
  unfold call__init__. by rewrite Hbind, Hi.
Qed.

(** A call that does not bind raises before the body: nothing is issued. *)
Lemma call_unbound (c : cls) (pos : list value) (kw : kwargs) (e : exn) (self : attrs) :
  bind_arguments (signature c) pos kw = Raise e ->
  call__init__ components__init__ c pos kw self = (Raise e, self, []).
Proof. intros Hbind. unfold call__init__. by rewrite Hbind. Qed.

(** Passing every parameter by keyword, or every one by position, binds to
    the invocation itself. *)
Lemma call_by_keyword (i : invocation) :
  call__init__ components__init__ (class_of i) [] (list_to_map (received i))
  = __init__ components__init__ i.
Proof. destruct i; reflexivity. Qed.

Lemma call_by_position (i : invocation) :
  call__init__ components__init__ (class_of i) (arguments i) ∅
  = __init__ components__init__ i.
Proof. destruct i; reflexivity. Qed.

End Calls.

(** ** Closed instances *)

Ltac pick_received :=
  unfold received; simpl;
  repeat first [apply list_elem_of_here | apply list_elem_of_further].

Ltac refute_keyword H :=
  repeat (apply elem_of_cons in H as [H | H];
          [by simplify_eq|]);
  by apply elem_of_nil in H.

(** C6, as stated, fails: there is no class with a parameter [p] and a
    keyword [kw] other than [p] such that every call of the class's
    constructor hands the value received for [p] to the base constructor
    under [kw].  (The value has to be followed through every call: in one
    call two parameters may hold equal values.) *)
Lemma no_constructor_renames_a_parameter :
  ~ (exists (c : cls) (p kw : string),
        p ∈ parameters c /\ kw <> p /\
        forall comp (i : invocation) (self : attrs) (v : value),
          class_of i = c -> (p, v) ∈ received i ->
          exists b args,
            (b, "__init__", args) ∈ super_calls (events (__init__ comp i self))
            /\ (kw, v) ∈ args).
Proof.
  intros (c & p & kw & Hp & Hne & H).
  specialize (H example__init__ (example_invocation c) ∅).
  destruct c; unfold parameters in Hp; simpl in Hp;
    repeat (apply elem_of_cons in Hp as [-> | Hp]);
    try (by apply elem_of_nil in Hp);
    (edestruct H as (b & args & Hcall & Hkw); [reflexivity | pick_received |]);
    vm_compute in Hcall;
    apply list_elem_of_singleton in Hcall; injection Hcall as -> ->;
    refute_keyword Hkw.
Qed.

(** The hypothesis of C9 holds of two [Number] calls that differ in every
    argument and in the instance. *)
Lemma warning_independent_of_arguments_witness :
  class_of (NewNumber (VInt 1) VNone (VBool false))
    = class_of (NewNumber VNone (VStr "n") (VBool true))
  /\ before_super_call
       (events (__init__ example__init__
                  (NewNumber (VInt 1) VNone (VBool false)) ∅))
     = before_super_call
         (events (__init__ example__init__
                    (NewNumber VNone (VStr "n") (VBool true))
                    {["label" := VStr "old"]}))
  /\ before_super_call
       (events (__init__ example__init__
                  (NewNumber (VInt 1) VNone (VBool false)) ∅))
     = [Warned (deprecation_warning Number)].
Proof.
  split; [reflexivity|].
  apply (warning_independent_of_arguments example__init__
           (NewNumber (VInt 1) VNone (VBool false))
           (NewNumber VNone (VStr "n") (VBool true))
           ∅ {["label" := VStr "old"]}).
  reflexivity.
Defined.

(** The hypotheses of C10 hold of an instance whose [default] is 7 and of
    the sample template context. *)
Lemma get_template_context_extends_parent_witness :
  ({["default" := VInt 7]} : gmap string value) !! "default" = Some (VInt 7)
  /\ exists ctx : gmap string value,
       outcome (get_template_context example_get_template_context
                  {["default" := VInt 7]})
         = Return (VDict ctx)
       /\ (forall k v,
             ({["name" := VStr "state"; "label" := VNone]} : gmap string value) !! k
               = Some v -> ctx !! k = Some v)
       /\ (forall k, k <> "default" ->
             ctx !! k
             = ({["name" := VStr "state"; "label" := VNone]} : gmap string value) !! k)
       /\ (({["name" := VStr "state"; "label" := VNone]} : gmap string value)
             !! "default" = None -> ctx !! "default" = Some (VInt 7))
       /\ dom ctx
          = {["default"]}
              ∪ dom ({["name" := VStr "state"; "label" := VNone]} : gmap string value).
Proof.
  split; [reflexivity|].
  apply (get_template_context_extends_parent example_get_template_context
           {["default" := VInt 7]} {["default" := VInt 7]} (VInt 7)
           {["name" := VStr "state"; "label" := VNone]} []);
    reflexivity.
Defined.

(** ** Examples *)

(** A base context that has ["default"] keeps its own value. *)
Example get_template_context_parent_default_stands :
  outcome
    (get_template_context
       (fun _ self => (Return (VDict {["default" := VStr "theirs"]}), self, []))
       {["default" := VStr "ours"]})
  = Return (VDict {["default" := VStr "theirs"]}).
Proof. reflexivity. Qed.

(** Without a [default] attribute the method raises before it calls the
    base class. *)
Example get_template_context_without_default :
  get_template_context example_get_template_context ∅
  = (Raise (Exception "AttributeError" "default"), ∅, []).
Proof. reflexivity. Qed.

(** [Slider(label="s")]: the other parameters take the defaults of the
    signature, and all six reach the base constructor. *)
Example Slider_call_with_defaults :
  events (call__init__ example__init__ Slider [] {["label" := VStr "s"]} ∅)
  = [Warned (deprecation_warning Slider);
     SuperCall components.Slider "__init__"
       [("label", VStr "s"); ("minimum", VInt 0); ("maximum", VInt 100);
        ("step", VNone); ("default", VNone); ("optional", VBool false)]].
Proof. reflexivity. Qed.

(** [Radio()] leaves out the required [choices]: a [TypeError], and no
    warning. *)
Example Radio_call_without_choices :
  call__init__ example__init__ Radio [] ∅ ∅ = (Raise type_error, ∅, []).
Proof. reflexivity. Qed.

(** [Number(1, default=2)] gives [default] twice. *)
Example Number_call_default_twice :
  call__init__ example__init__ Number [VInt 1] {["default" := VInt 2]} ∅
  = (Raise type_error, ∅, []).
Proof. reflexivity. Qed.

(** A base constructor that raises: the deprecation warning was issued, and
    the exception is the base constructor's. *)
Example Checkbox_call_base_raises :
  __init__ example__init__ (NewCheckbox (VBool true) VNone (VStr "yes")) ∅
  = (Raise (Exception "TypeError" "optional must be a bool"), ∅,
     [Warned (deprecation_warning Checkbox);
      SuperCall components.Checkbox "__init__"
        [("label", VNone); ("default", VBool true); ("optional", VStr "yes")]]).
Proof. reflexivity. Qed.

(** * More of the module: calls and [State.get_template_context] *)

(** ** Binding, parameter by parameter *)

Lemma result_map_Return {A B} (f : A -> B) (r : result A) (b : B) :
  result_map f r = Return b -> exists a, r = Return a /\ b = f a.
Proof. destruct r as [a|e]; simpl; [intros [= <-]; by exists a | discriminate]. Qed.

(** A keyword argument ends up as the value of the parameter of its name. *)
Lemma bind_arguments_keyword sig : forall pos kw vs p v,
  bind_arguments sig pos kw = Return vs ->
  kw !! p = Some v -> (p, v) ∈ zip sig.*1 vs.
Proof.
  induction sig as [|[q dq] sig IH]; intros pos kw vs p v; simpl.
  - destruct pos; [case_bool_decide as Hdom|]; try discriminate.
    intros _ Hp. apply (elem_of_dom_2 (D := gset string)) in Hp.
    rewrite Hdom in Hp. by apply not_elem_of_empty in Hp.
  - destruct pos as [|w pos].
    + destruct (kw !! q) as [w|] eqn:Hq.
      * intros (vs' & Hb & ->)%result_map_Return Hp. simpl.
        destruct (decide (p = q)) as [->|Hne].
        -- assert (v = w) as -> by congruence. apply list_elem_of_here.
        -- apply list_elem_of_further. apply (IH _ _ _ _ _ Hb).
           by rewrite lookup_delete_ne.
      * destruct dq as [d|]; [|discriminate].
        intros (vs' & Hb & ->)%result_map_Return Hp. simpl.
        apply list_elem_of_further. by apply (IH _ _ _ _ _ Hb).
    + destruct (kw !! q) eqn:Hq; [discriminate|].
      intros (vs' & Hb & ->)%result_map_Return Hp. simpl.
      apply list_elem_of_further. by apply (IH _ _ _ _ _ Hb).
Qed.

(** A positional argument ends up as the value of the parameter at its
    position. *)
Lemma bind_arguments_positional sig : forall pos kw vs j v,
  bind_arguments sig pos kw = Return vs ->
  pos !! j = Some v -> vs !! j = Some v.
Proof.
  induction sig as [|[q dq] sig IH]; intros pos kw vs j v; simpl.
  - destruct pos; [intros _ Hj; by rewrite lookup_nil in Hj | discriminate].
  - destruct pos as [|w pos]; [intros _ Hj; by rewrite lookup_nil in Hj|].
    destruct (kw !! q); [discriminate|].
    intros (vs' & Hb & ->)%result_map_Return Hj.
    destruct j as [|j]; [exact Hj|]. simpl in *. by apply (IH _ _ _ _ _ Hb).
Qed.

(** A parameter that is given neither by position nor by keyword has the
    default of the signature. *)
Lemma bind_arguments_default sig : forall pos kw vs p d,
  bind_arguments sig pos kw = Return vs ->
  (p, Some d) ∈ drop (length pos) sig -> kw !! p = None ->
  (p, d) ∈ zip sig.*1 vs.
Proof.
  induction sig as [|[q dq] sig IH]; intros pos kw vs p d; simpl.
  - intros _ Hin. rewrite drop_nil in Hin. by apply elem_of_nil in Hin.
  - destruct pos as [|w pos]; simpl.
    + destruct (kw !! q) as [w|] eqn:Hq.
      * intros (vs' & Hb & ->)%result_map_Return Hin Hp. simpl.
        apply elem_of_cons in Hin as [[= Hpq _]|Hin]; [congruence|].
        apply list_elem_of_further. apply (IH [] _ _ _ _ Hb); [exact Hin|].
        rewrite lookup_delete_ne; [exact Hp|congruence].
      * destruct dq as [d'|].
        -- intros (vs' & Hb & ->)%result_map_Return Hin Hp. simpl.
           apply elem_of_cons in Hin as [[= Hpq Hd]|Hin];
             [subst; apply list_elem_of_here|].
           apply list_elem_of_further. by apply (IH [] _ _ _ _ Hb).
        -- discriminate.
    + destruct (kw !! q); [discriminate|].
      intros (vs' & Hb & ->)%result_map_Return Hin Hp. simpl.
      apply list_elem_of_further. by apply (IH _ _ _ _ _ Hb).
Qed.

(** The four ways a call fails to bind. *)
Lemma bind_arguments_unknown_keyword sig : forall pos kw p v,
  kw !! p = Some v -> p ∉ sig.*1 ->
  bind_arguments sig pos kw = Raise type_error.
Proof.
  induction sig as [|[q dq] sig IH]; intros pos kw p v Hp Hnot; simpl.
  - destruct pos; [|reflexivity]. case_bool_decide as Hdom; [|reflexivity].
    apply (elem_of_dom_2 (D := gset string)) in Hp.
    rewrite Hdom in Hp. by apply not_elem_of_empty in Hp.
  - simpl in Hnot. apply not_elem_of_cons in Hnot as [Hne Hnot].
    destruct pos as [|w pos].
    + destruct (kw !! q) as [w|] eqn:Hq.
      * rewrite (IH [] (delete q kw) p v); [reflexivity| |exact Hnot].
        by rewrite lookup_delete_ne.
      * destruct dq; [|reflexivity]. by rewrite (IH [] kw p v).
    + destruct (kw !! q); [reflexivity|]. by rewrite (IH pos kw p v).
Qed.

Lemma bind_arguments_too_many sig : forall pos kw,
  length sig < length pos -> bind_arguments sig pos kw = Raise type_error.
Proof.
  induction sig as [|[q dq] sig IH]; intros pos kw Hlen; simpl.
  - destruct pos; [simpl in Hlen; lia | reflexivity].
  - destruct pos as [|w pos]; [simpl in Hlen; lia|].
    destruct (kw !! q); [reflexivity|].
    rewrite IH; [reflexivity | simpl in Hlen; lia].
Qed.

Lemma bind_arguments_twice sig : forall pos kw p v,
  p ∈ take (length pos) sig.*1 -> kw !! p = Some v ->
  bind_arguments sig pos kw = Raise type_error.
Proof.
  induction sig as [|[q dq] sig IH]; intros pos kw p v Hin Hp; simpl.
  - simpl in Hin. rewrite take_nil in Hin. by apply elem_of_nil in Hin.
  - destruct pos as [|w pos]; simpl in Hin; [by apply elem_of_nil in Hin|].
    destruct (kw !! q) eqn:Hq; [reflexivity|].
    apply elem_of_cons in Hin as [->|Hin]; [congruence|].
    by rewrite (IH pos kw p v).
Qed.

Lemma bind_arguments_missing sig : forall pos kw p,
  (p, None) ∈ drop (length pos) sig -> kw !! p = None ->
  bind_arguments sig pos kw = Raise type_error.
Proof.
  induction sig as [|[q dq] sig IH]; intros pos kw p Hin Hp; simpl.
  - rewrite drop_nil in Hin. by apply elem_of_nil in Hin.
  - destruct pos as [|w pos]; simpl in Hin.
    + destruct (kw !! q) as [w|] eqn:Hq.
      * apply elem_of_cons in Hin as [[= Hpq _]|Hin]; [congruence|].
        rewrite (IH [] (delete q kw) p); [reflexivity|exact Hin|].
        rewrite lookup_delete_ne; [exact Hp|congruence].
      * destruct dq as [d|]; [|reflexivity].
        apply elem_of_cons in Hin as [[=]|Hin].
        by rewrite (IH [] kw p).
    + destruct (kw !! q); [reflexivity|]. by rewrite (IH pos kw p).
Qed.

Lemma elem_of_drop_1 {A} (x : A) (n : nat) (l : list A) : x ∈ drop n l -> x ∈ l.
Proof.
  intros Hin. rewrite <- (take_drop n l). apply elem_of_app. by right.
Qed.

Lemma bind_arguments_Raise sig : forall pos kw e,
  bind_arguments sig pos kw = Raise e -> e = type_error.
Proof.
  induction sig as [|[q dq] sig IH]; intros pos kw e; simpl.
  - destruct pos; [case_bool_decide|]; congruence.
  - assert (Hmap : forall (w : value) r,
               result_map (cons w) r = Raise e -> r = Raise e).
    { intros w [a|e']; simpl; congruence. }
    destruct pos as [|w pos].
    + destruct (kw !! q) as [w|]; [|destruct dq as [d|]];
        try (intros H%Hmap; exact (IH _ _ _ H)); congruence.
    + destruct (kw !! q); [congruence|].
      intros H%Hmap; exact (IH _ _ _ H).
Qed.

Lemma bind_arguments_fits_1 sig pos kw vs :
  bind_arguments sig pos kw = Return vs -> fits sig pos kw.
Proof.
  intros Hb. split; [|split].
  - destruct (decide (length pos <= length sig)) as [|Hn]; [done|].
    rewrite bind_arguments_too_many in Hb by lia. discriminate.
  - intros p [v Hp].
    destruct (decide (p ∈ sig.*1)) as [Hin|Hnot].
    + rewrite <- (take_drop (length pos) sig.*1) in Hin.
      apply elem_of_app in Hin as [Hin|Hin]; [|exact Hin].
      rewrite (bind_arguments_twice _ _ _ _ _ Hin Hp) in Hb. discriminate.
    + rewrite (bind_arguments_unknown_keyword _ _ _ _ _ Hp Hnot) in Hb.
      discriminate.
  - intros p Hin. destruct (kw !! p) eqn:Hp; [by eexists|].
    rewrite (bind_arguments_missing _ _ _ _ Hin Hp) in Hb. discriminate.
Qed.

Lemma bind_arguments_fits_2 sig : NoDup sig.*1 -> forall pos kw,
  fits sig pos kw -> exists vs, bind_arguments sig pos kw = Return vs.
Proof.
  induction sig as [|[q dq] sig IH]; intros Hnd pos kw (Hlen & Hkw & Hreq); simpl in *.
  - destruct pos; [|simpl in Hlen; lia].
    rewrite bool_decide_eq_true_2; [by eexists|].
    apply dom_empty_iff_L, map_empty. intros p.
    destruct (kw !! p) eqn:Hp; [|done].
    assert (Hin : p ∈ drop 0 (@nil string)) by (apply Hkw; by eexists).
    by apply elem_of_nil in Hin.
  - apply NoDup_cons in Hnd as [Hq Hnd].
    destruct pos as [|w pos]; simpl in *.
    + destruct (kw !! q) as [w|] eqn:Hkq.
      * destruct (IH Hnd [] (delete q kw)) as [vs ->]; [|by eexists].
        split; [simpl; lia|split]; simpl.
        -- intros p [v Hp]. apply lookup_delete_Some in Hp as [Hne Hp].
           assert (Hin : p ∈ q :: sig.*1) by (apply Hkw; by eexists).
           apply elem_of_cons in Hin as [->|Hin]; [done|exact Hin].
        -- intros p Hin. rewrite lookup_delete_ne.
           ++ apply Hreq. by apply list_elem_of_further.
           ++ intros ->. apply Hq.
              by apply (list_elem_of_fmap_2 fst) in Hin.
      * destruct dq as [d|].
        -- destruct (IH Hnd [] kw) as [vs ->]; [|by eexists].
           split; [simpl; lia|split]; simpl.
           ++ intros p [v Hp].
              assert (Hin : p ∈ q :: sig.*1) by (apply Hkw; by eexists).
              apply elem_of_cons in Hin as [->|Hin]; [congruence|exact Hin].
           ++ intros p Hin. apply Hreq. by apply list_elem_of_further.
        -- destruct (Hreq q) as [v Hv]; [apply list_elem_of_here|congruence].
    + destruct (kw !! q) as [v|] eqn:Hkq.
      * exfalso. apply Hq.
        assert (Hin : q ∈ drop (length pos) sig.*1) by (apply Hkw; by eexists).
        exact (elem_of_drop_1 _ _ _ Hin).
      * destruct (IH Hnd pos kw) as [vs ->]; [|by eexists].
        split; [lia|split]; assumption.
Qed.

Lemma signature_NoDup (c : cls) : NoDup (signature c).*1.
Proof. apply parameters_NoDup. Qed.

Lemma label_and_optional_in_signature (c : cls) :
  ("label", Some VNone) ∈ signature c
  /\ ("optional", Some (VBool false)) ∈ signature c.
Proof.
  destruct c; split; simpl;
    repeat first [apply list_elem_of_here | apply list_elem_of_further].
Qed.

(** ** Calls of the constructors *)

Section CallProperties.

Variable components__init__ :
  components.t -> kwargs -> attrs -> result unit * attrs * list warning.

(** A call that binds: the warning, the call of the base constructor with
    the bound values under the parameter names, and what that call issues. *)
Lemma call_run (c : cls) (pos : list value) (kw : kwargs) (vs : list value)
    (self : attrs) :
  bind_arguments (signature c) pos kw = Return vs ->
  exists args : list (string * value),
    args ≡ₚ zip (parameters c) vs /\
    call__init__ components__init__ c pos kw self =
      match components__init__ (base c) (list_to_map args) self with
      | (r, self', ws) =>
          (r, self',
           Warned (deprecation_warning c)
             :: SuperCall (base c) "__init__" args :: map Warned ws)
      end.
Proof.
  intros Hbind.
  destruct (call_bound components__init__ c pos kw vs Hbind)
    as (i & <- & <- & ->).
  exact (init_run components__init__ i self).
Qed.

Lemma call_super_calls (c : cls) (pos : list value) (kw : kwargs)
    (vs : list value) (self : attrs) :
  bind_arguments (signature c) pos kw = Return vs ->
  exists args : list (string * value),
    args ≡ₚ zip (parameters c) vs /\
    super_calls (events (call__init__ components__init__ c pos kw self))
      = [(base c, "__init__", args)].
Proof.
  intros Hbind. destruct (call_run c pos kw vs self Hbind) as (args & Hperm & ->).
  exists args. split; [exact Hperm|].
  destruct (components__init__ _ _ self) as [[r self'] ws].
  unfold events; simpl. by rewrite super_calls_warned.
Qed.

Lemma call_unbound_iff (c : cls) (pos : list value) (kw : kwargs) (self : attrs) :
  call__init__ components__init__ c pos kw self = (Raise type_error, self, [])
  <-> bind_arguments (signature c) pos kw = Raise type_error.
Proof.
  split.
  - destruct (bind_arguments (signature c) pos kw) as [vs|e] eqn:Hbind.
    + destruct (call_run c pos kw vs self Hbind) as (args & _ & ->).
      destruct (components__init__ _ _ self) as [[r self'] ws]. discriminate.
    + intros _. by rewrite (bind_arguments_Raise _ _ _ _ Hbind).
  - apply call_unbound.
Qed.

(** X1: a call whose arguments fit the signature issues the deprecation
    warning of the class, then calls the base constructor with one keyword
    per parameter, carrying the value bound to it, and issues nothing else
    of its own. *)
Theorem call_warns_and_forwards_bound_values (c : cls) (pos : list value)
    (kw : kwargs) (vs : list value) (self : attrs) :
  bind_arguments (signature c) pos kw = Return vs ->
  exists args : list (string * value),
    args ≡ₚ zip (parameters c) vs
    /\ events (call__init__ components__init__ c pos kw self)
       = Warned (deprecation_warning c)
           :: SuperCall (base c) "__init__" args
           :: map Warned (components__init__ (base c) (list_to_map args) self).2.
Proof.
  intros Hbind. destruct (call_run c pos kw vs self Hbind) as (args & Hperm & ->).
  exists args. split; [exact Hperm|].
  by destruct (components__init__ _ _ self) as [[r self'] ws].
Qed.

(** X2: in a call that binds, a keyword argument reaches the base
    constructor under the same keyword with the same value. *)
Theorem call_keyword_reaches_base (c : cls) (pos : list value) (kw : kwargs)
    (vs : list value) (self : attrs) (p : string) (v : value) :
  bind_arguments (signature c) pos kw = Return vs ->
  kw !! p = Some v ->
  exists args : list (string * value),
    super_calls (events (call__init__ components__init__ c pos kw self))
      = [(base c, "__init__", args)]
    /\ (p, v) ∈ args.
Proof.
  intros Hbind Hp.
  destruct (call_super_calls c pos kw vs self Hbind) as (args & Hperm & Hcalls).
  exists args. split; [exact Hcalls|].
  rewrite Hperm. exact (bind_arguments_keyword _ _ _ _ _ _ Hbind Hp).
Qed.

(** X3: in a call that binds, the positional argument at position [j]
    reaches the base constructor under the name of the [j]-th parameter of
    the signature. *)
Theorem call_positional_reaches_base (c : cls) (pos : list value) (kw : kwargs)
    (vs : list value) (self : attrs) (j : nat) (v : value) :
  bind_arguments (signature c) pos kw = Return vs ->
  pos !! j = Some v ->
  exists (p : string) (args : list (string * value)),
    parameters c !! j = Some p
    /\ super_calls (events (call__init__ components__init__ c pos kw self))
       = [(base c, "__init__", args)]
    /\ (p, v) ∈ args.
Proof.
  intros Hbind Hj.
  pose proof (bind_arguments_positional _ _ _ _ _ _ Hbind Hj) as Hvs.
  pose proof (bind_arguments_length _ _ _ _ Hbind) as Hlen.
  destruct (lookup_lt_is_Some_2 (parameters c) j) as [p Hp].
  { unfold parameters. rewrite length_fmap, <- Hlen.
    by apply lookup_lt_Some in Hvs. }
  destruct (call_super_calls c pos kw vs self Hbind) as (args & Hperm & Hcalls).
  exists p, args. split; [exact Hp|split; [exact Hcalls|]].
  rewrite Hperm. apply list_elem_of_lookup. exists j.
  apply lookup_zip_with_Some. by exists p, v.
Qed.

(** X4: in a call that binds, a parameter given neither by position nor by
    keyword reaches the base constructor with the default of this module's
    signature. *)
Theorem call_omitted_parameter_takes_default (c : cls) (pos : list value)
    (kw : kwargs) (vs : list value) (self : attrs) (p : string) (d : value) :
  bind_arguments (signature c) pos kw = Return vs ->
  (p, Some d) ∈ drop (length pos) (signature c) ->
  kw !! p = None ->
  exists args : list (string * value),
    super_calls (events (call__init__ components__init__ c pos kw self))
      = [(base c, "__init__", args)]
    /\ (p, d) ∈ args.
Proof.
  intros Hbind Hin Hp.
  destruct (call_super_calls c pos kw vs self Hbind) as (args & Hperm & Hcalls).
  exists args. split; [exact Hcalls|].
  rewrite Hperm. exact (bind_arguments_default _ _ _ _ _ _ Hbind Hin Hp).
Qed.

(** X5: a call raises [TypeError] before the body, with no warning issued,
    the base constructor not called and the instance untouched, exactly when
    its arguments do not fit the signature: too many positional arguments,
    a keyword that names no parameter or one already filled by position, or
    a required parameter left out. *)
Theorem call_raises_before_body_iff_misfit (c : cls) (pos : list value)
    (kw : kwargs) (self : attrs) :
  call__init__ components__init__ c pos kw self = (Raise type_error, self, [])
  <-> ~ fits (signature c) pos kw.
Proof.
  rewrite call_unbound_iff. split.
  - intros Hraise Hfits.
    destruct (bind_arguments_fits_2 _ (signature_NoDup c) _ _ Hfits) as [vs Hvs].
    congruence.
  - intros Hmisfit.
    destruct (bind_arguments (signature c) pos kw) as [vs|e] eqn:Hbind.
    + destruct Hmisfit. exact (bind_arguments_fits_1 _ _ _ _ Hbind).
    + by rewrite (bind_arguments_Raise _ _ _ _ Hbind).
Qed.

(** X6: called without arguments, [CheckboxGroup], [Radio] and [Dropdown]
    raise [TypeError] before the body (their [choices] has no default), and
    they are the only classes that do. *)
Theorem call_without_arguments_raises_iff_choices (c : cls) (self : attrs) :
  call__init__ components__init__ c [] ∅ self = (Raise type_error, self, [])
  <-> c ∈ [CheckboxGroup; Radio; Dropdown].
Proof.
  rewrite call_unbound_iff.
  destruct c; (split; [intros H; try discriminate H | intros H]);
    try reflexivity;
    try (repeat first [apply list_elem_of_here | apply list_elem_of_further]);
    exfalso; repeat (apply elem_of_cons in H as [H|H]; [discriminate H|]);
    by apply elem_of_nil in H.
Qed.

(** X7: the parameters of one call may be split at any point into
    positional arguments and keyword arguments: the first [n] values by
    position and the others by name run the constructor as passing them all
    by name or all by position does. *)
Theorem call_positional_then_keyword (i : invocation) (n : nat) :
  call__init__ components__init__ (class_of i) (take n (arguments i))
    (list_to_map (drop n (received i)))
  = __init__ components__init__ i.
Proof.
  destruct i; do 10 (destruct n as [|n]; [reflexivity|]); reflexivity.
Qed.

(** X8: every class takes [label] and [optional]; a call by keywords that
    binds and leaves one out hands the base constructor [label=None],
    respectively [optional=False]. *)
Theorem call_label_and_optional_defaults (c : cls) (kw : kwargs)
    (vs : list value) (self : attrs) :
  bind_arguments (signature c) [] kw = Return vs ->
  exists args : list (string * value),
    super_calls (events (call__init__ components__init__ c [] kw self))
      = [(base c, "__init__", args)]
    /\ (kw !! "label" = None -> ("label", VNone) ∈ args)
    /\ (kw !! "optional" = None -> ("optional", VBool false) ∈ args).
Proof.
  intros Hbind.
  destruct (call_super_calls c [] kw vs self Hbind) as (args & Hperm & Hcalls).
  destruct (label_and_optional_in_signature c) as [Hlabel Hoptional].
  exists args. split; [exact Hcalls|].
  split; intros Hnone; rewrite Hperm.
  - exact (bind_arguments_default _ [] _ _ _ _ Hbind Hlabel Hnone).
  - exact (bind_arguments_default _ [] _ _ _ _ Hbind Hoptional Hnone).
Qed.

End CallProperties.

(** ** Calls with the warning filter in view *)

Section FilteredCalls.

Variable components__init__ :
  components.t -> kwargs -> attrs -> result unit * attrs * list warning.

(** Under any action but ["error"] the bodies are the ones of [__init__]. *)
Lemma init_under_other (i : invocation) :
  __init__under components__init__ ActionOther i = __init__ components__init__ i.
Proof. destruct i; reflexivity. Qed.

Lemma call_under_other (c : cls) (pos : list value) (kw : kwargs) :
  call__init__under components__init__ ActionOther c pos kw
  = call__init__ components__init__ c pos kw.
Proof.
  unfold call__init__under, call__init__.
  destruct (bind_arguments (signature c) pos kw) as [vs|e]; [|reflexivity].
  destruct (invocation_of c vs) as [i|]; [apply init_under_other|reflexivity].
Qed.

(** Under ["error"] a call that binds raises the deprecation warning itself:
    nothing is issued and the base constructor is not called. *)
Lemma call_under_error (c : cls) (pos : list value) (kw : kwargs)
    (vs : list value) (self : attrs) :
  bind_arguments (signature c) pos kw = Return vs ->
  call__init__under components__init__ ActionError c pos kw self
  = (Raise (Exception "DeprecationWarning" (message (deprecation_warning c))),
     self, []).
Proof.
  intros Hbind. pose proof (bind_arguments_length _ _ _ _ Hbind) as Hlen.
  destruct (invocation_of_length c vs Hlen) as [i Hi].
  destruct (invocation_of_Some c vs i Hi) as [<- _].
  unfold call__init__under. rewrite Hbind, Hi. by destruct i.
Qed.

(** C7, amended: for a call whose arguments fit the signature, under a
    warning filter that does not turn the warning into an exception, the
    constructor raises an exception exactly when the base constructor raises
    it on the bound arguments; it leaves the instance as the base
    constructor leaves it; and the warnings are the deprecation warning
    followed by the base constructor's own. *)
Theorem call_raises_iff_component_raises (a : filter_action) (c : cls)
    (pos : list value) (kw : kwargs) (vs : list value) (self : attrs) :
  a <> ActionError ->
  bind_arguments (signature c) pos kw = Return vs ->
  (forall e : exn,
      outcome (call__init__under components__init__ a c pos kw self) = Raise e
      <-> (components__init__ (base c) (list_to_map (zip (parameters c) vs)) self).1.1
          = Raise e)
  /\ instance (call__init__under components__init__ a c pos kw self)
     = (components__init__ (base c) (list_to_map (zip (parameters c) vs)) self).1.2
  /\ warnings_of (events (call__init__under components__init__ a c pos kw self))
     = deprecation_warning c
         :: (components__init__ (base c) (list_to_map (zip (parameters c) vs)) self).2.
Proof.
  intros Ha Hbind. destruct a; [done|]. rewrite call_under_other.
  destruct (call_run components__init__ c pos kw vs self Hbind)
    as (args & Hperm & ->).
  rewrite (forwarded_map args (zip (parameters c) vs)); [| |exact Hperm].
  - destruct (components__init__ _ _ self) as [[r self'] ws].
    unfold outcome, instance, events; simpl.
    by rewrite warnings_of_warned.
  - rewrite fst_zip; [apply parameters_NoDup|].
    unfold parameters. rewrite length_fmap.
    by rewrite (bind_arguments_length _ _ _ _ Hbind).
Qed.

End FilteredCalls.

(** ** [State.get_template_context], against any base class *)

Section TemplateContext.

Variable components_get_template_context :
  components.t -> attrs -> result value * attrs * list warning.

(** X9: as long as the base class's method does not return an opaque
    object (which might be a mapping), [State.get_template_context] raises
    in three ways and no other: [AttributeError] when the instance has no
    [default]; whatever the base class's method raises; [TypeError] when
    that method returns [None], a boolean, an integer, a string or a
    list. *)
Theorem get_template_context_raises_iff (self : attrs) (e : exn) :
  (forall id : positive,
      (components_get_template_context components.State self).1.1
        <> Return (VObject id)) ->
  outcome (get_template_context components_get_template_context self) = Raise e
  <-> (self !! "default" = None /\ e = Exception "AttributeError" "default")
      \/ (is_Some (self !! "default")
          /\ ((components_get_template_context components.State self).1.1 = Raise e
              \/ exists v : value,
                   (components_get_template_context components.State self).1.1
                     = Return v
                   /\ not_a_mapping v = true
                   /\ e = Exception "TypeError" "object is not a mapping")).
Proof.
  intros Hobject.
  unfold get_template_context, bind, getattr, super_get_template_context, outcome.
  destruct (self !! "default") as [d|] eqn:Hd; simpl.
  - destruct (components_get_template_context components.State self)
      as [[[v|e'] self'] ws]; simpl in *.
    + destruct v; simpl; split;
        try (intros [= <-]; right; split; [by eexists|]; right;
             eexists; split; [reflexivity|]; split; reflexivity);
        try (intros [[[=] _]|[_ [[=]|(v & [= <-] & Hv & ->)]]]; reflexivity);
        try discriminate.
      * intros [[[=] _]|[_ [[=]|(v & [= <-] & [=] & _)]]].
      * intros _. by destruct (Hobject id).
    + split.
      * intros [= ->]. right. split; [by eexists|]. by left.
      * intros [[[=] _]|[_ [[= ->]|(v & [=] & _)]]]. reflexivity.
  - split.
    + intros [= <-]. by left.
    + intros [[_ ->]|[[d [=]] _]]. reflexivity.
Qed.

(** X10: [State.get_template_context] reads [self.default] before it calls
    the base class.  Without that attribute it stops at once: no call, no
    warning, the instance untouched.  With it, it calls the base class's
    method once, without arguments, and the instance and the warnings
    afterwards are the ones that call leaves, whether it returns or
    raises. *)
Theorem get_template_context_effects (self : attrs) :
  match self !! "default" with
  | None =>
      get_template_context components_get_template_context self
      = (Raise (Exception "AttributeError" "default"), self, [])
  | Some _ =>
      super_calls (events (get_template_context components_get_template_context self))
        = [(components.State, "get_template_context", [])]
      /\ instance (get_template_context components_get_template_context self)
         = (components_get_template_context components.State self).1.2
      /\ warnings_of (events (get_template_context components_get_template_context self))
         = (components_get_template_context components.State self).2
  end.
Proof.
  unfold get_template_context, bind, getattr, super_get_template_context.
  change (base State) with components.State.
  destruct (self !! "default") as [d|] eqn:Hd; [|reflexivity].
  destruct (components_get_template_context components.State self)
    as [[[v|e'] self'] ws]; unfold events, instance; simpl.
  - destruct v; simpl;
      rewrite ?app_nil_r, super_calls_warned, warnings_of_warned; done.
  - by rewrite super_calls_warned, warnings_of_warned.
Qed.

(** X11: the dictionary [State.get_template_context] returns is the base
    class's own when that has the key ["default"], and otherwise the base
    class's with ["default"] set to [self.default]. *)
Theorem get_template_context_result (self self' : attrs) (d : value)
    (parent : gmap string value) (ws : list warning) :
  self !! "default" = Some d ->
  components_get_template_context components.State self
    = (Return (VDict parent), self', ws) ->
  outcome (get_template_context components_get_template_context self)
  = Return (VDict (if decide ("default" ∈ dom parent) then parent
                   else <["default" := d]> parent)).
Proof.
  intros Hd Hparent.
  unfold get_template_context, bind, getattr, super_get_template_context, outcome.
  rewrite Hd; simpl. rewrite Hparent; simpl. do 2 f_equal.
  unfold dict_update. destruct (decide ("default" ∈ dom parent)) as [Hin|Hnot].
  - apply elem_of_dom in Hin as [v Hv]. apply map_eq. intros k.
    rewrite lookup_union. destruct (decide (k = "default")) as [->|Hne].
    + by rewrite Hv, lookup_singleton_eq.
    + rewrite lookup_singleton_ne by congruence. by destruct (parent !! k).
  - apply not_elem_of_dom in Hnot. apply map_eq. intros k.
    rewrite lookup_union. destruct (decide (k = "default")) as [->|Hne].
    + by rewrite Hnot, lookup_singleton_eq, lookup_insert_eq.
    + rewrite lookup_singleton_ne, lookup_insert_ne by congruence.
      by destruct (parent !! k).
Qed.

End TemplateContext.

(** ** Closed instances of the call properties

    The call [Slider(1, label="s")] against the sample base class: it binds
    [minimum] by position, [label] by keyword and the other four parameters
    to their defaults. *)

Ltac pick_element :=
  simpl; repeat first [apply list_elem_of_here | apply list_elem_of_further].

Lemma call_warns_and_forwards_bound_values_witness :
  bind_arguments (signature Slider) [VInt 1] {["label" := VStr "s"]}
    = Return [VInt 1; VInt 100; VNone; VNone; VStr "s"; VBool false]
  /\ exists args : list (string * value),
       args ≡ₚ zip (parameters Slider)
                 [VInt 1; VInt 100; VNone; VNone; VStr "s"; VBool false]
       /\ events (call__init__ example__init__ Slider [VInt 1]
                    {["label" := VStr "s"]} ∅)
          = Warned (deprecation_warning Slider)
              :: SuperCall (base Slider) "__init__" args
              :: map Warned (example__init__ (base Slider) (list_to_map args) ∅).2.
Proof.
  split; [reflexivity|].
  apply (call_warns_and_forwards_bound_values example__init__ Slider [VInt 1]
           {["label" := VStr "s"]}
           [VInt 1; VInt 100; VNone; VNone; VStr "s"; VBool false] ∅).
  reflexivity.
Defined.

Lemma call_keyword_reaches_base_witness :
  ({["label" := VStr "s"]} : gmap string value) !! "label" = Some (VStr "s")
  /\ exists args : list (string * value),
       super_calls (events (call__init__ example__init__ Slider [VInt 1]
                              {["label" := VStr "s"]} ∅))
         = [(base Slider, "__init__", args)]
       /\ ("label", VStr "s") ∈ args.
Proof.
  split; [reflexivity|].
  apply (call_keyword_reaches_base example__init__ Slider [VInt 1]
           {["label" := VStr "s"]}
           [VInt 1; VInt 100; VNone; VNone; VStr "s"; VBool false] ∅
           "label" (VStr "s"));
    reflexivity.
Defined.

Lemma call_positional_reaches_base_witness :
  [VInt 1] !! 0 = Some (VInt 1)
  /\ exists (p : string) (args : list (string * value)),
       parameters Slider !! 0 = Some p
       /\ super_calls (events (call__init__ example__init__ Slider [VInt 1]
                                 {["label" := VStr "s"]} ∅))
          = [(base Slider, "__init__", args)]
       /\ (p, VInt 1) ∈ args.
Proof.
  split; [reflexivity|].
  apply (call_positional_reaches_base example__init__ Slider [VInt 1]
           {["label" := VStr "s"]}
           [VInt 1; VInt 100; VNone; VNone; VStr "s"; VBool false] ∅
           0 (VInt 1));
    reflexivity.
Defined.

Lemma call_omitted_parameter_takes_default_witness :
  ({["label" := VStr "s"]} : gmap string value) !! "maximum" = None
  /\ exists args : list (string * value),
       super_calls (events (call__init__ example__init__ Slider [VInt 1]
                              {["label" := VStr "s"]} ∅))
         = [(base Slider, "__init__", args)]
       /\ ("maximum", VInt 100) ∈ args.
Proof.
  split; [reflexivity|].
  apply (call_omitted_parameter_takes_default example__init__ Slider [VInt 1]
           {["label" := VStr "s"]}
           [VInt 1; VInt 100; VNone; VNone; VStr "s"; VBool false] ∅
           "maximum" (VInt 100));
    [reflexivity | pick_element | reflexivity].
Defined.

(** [Radio(choices=7)]: [label] and [optional] are left out. *)
Lemma call_label_and_optional_defaults_witness :
  bind_arguments (signature Radio) [] {["choices" := VInt 7]}
    = Return [VInt 7; VStr "value"; VNone; VNone; VBool false]
  /\ exists args : list (string * value),
       super_calls (events (call__init__ example__init__ Radio []
                              {["choices" := VInt 7]} ∅))
         = [(base Radio, "__init__", args)]
       /\ (({["choices" := VInt 7]} : gmap string value) !! "label" = None
           -> ("label", VNone) ∈ args)
       /\ (({["choices" := VInt 7]} : gmap string value) !! "optional" = None
           -> ("optional", VBool false) ∈ args).
Proof.
  split; [reflexivity|].
  apply (call_label_and_optional_defaults example__init__ Radio
           {["choices" := VInt 7]}
           [VInt 7; VStr "value"; VNone; VNone; VBool false] ∅).
  reflexivity.
Defined.

(** An instance whose [default] is 7, against a base context that has its
    own ["default"]. *)
Lemma get_template_context_result_witness :
  ({["default" := VInt 7]} : gmap string value) !! "default" = Some (VInt 7)
  /\ outcome
       (get_template_context
          (fun _ self => (Return (VDict {["default" := VStr "theirs"]}), self, []))
          {["default" := VInt 7]})
     = Return
         (VDict
            (if decide ("default" ∈ dom ({["default" := VStr "theirs"]} : gmap string value))
             then {["default" := VStr "theirs"]}
             else <["default" := VInt 7]> {["default" := VStr "theirs"]})).
Proof.
  split; [reflexivity|].
  apply (get_template_context_result
           (fun _ self => (Return (VDict {["default" := VStr "theirs"]}), self, []))
           {["default" := VInt 7]} {["default" := VInt 7]} (VInt 7)
           {["default" := VStr "theirs"]} []);
    reflexivity.
Defined.

(** ** More examples *)

(** [Textbox(3, "hint", label="name")]: two positional arguments and one
    keyword. *)
Example Textbox_call_mixed :
  super_calls
    (events (call__init__ example__init__ Textbox [VInt 3; VStr "hint"]
               {["label" := VStr "name"]} ∅))
  = [(components.Textbox, "__init__",
      [("lines", VInt 3); ("placeholder", VStr "hint"); ("default", VStr "");
       ("numeric", VBool false); ("type", VStr "str"); ("label", VStr "name");
       ("optional", VBool false)])].
Proof. reflexivity. Qed.

(** [State(label="s", colour=1)]: [colour] is no parameter. *)
Example State_call_unknown_keyword :
  call__init__ example__init__ State []
    {["label" := VStr "s"; "colour" := VInt 1]} ∅
  = (Raise type_error, ∅, []).
Proof. reflexivity. Qed.

(** [Number(1, 2, 3, 4)]: one positional argument too many. *)
Example Number_call_too_many :
  call__init__ example__init__ Number [VInt 1; VInt 2; VInt 3; VInt 4] ∅ ∅
  = (Raise type_error, ∅, []).
Proof. reflexivity. Qed.

(** C7, as stated, fails, in two ways, against a base constructor that
    never raises.  With the filter aside, [State(colour=1)] raises
    [TypeError]: the signature of this module's [State] has no [colour].
    And under the filter action ["error"], [Number()], which fits the
    signature, raises the [DeprecationWarning]. *)
Lemma constructor_raises_where_base_does_not :
  ~ (forall (a : filter_action) (c : cls) (kw : kwargs) (self : attrs),
        a <> ActionError ->
        (exists e, outcome (call__init__under quiet__init__ a c [] kw self) = Raise e)
        <-> (exists e, (quiet__init__ (base c) kw self).1.1 = Raise e))
  /\ ~ (forall (a : filter_action) (c : cls) (kw : kwargs) (vs : list value)
               (self : attrs),
          bind_arguments (signature c) [] kw = Return vs ->
          (exists e, outcome (call__init__under quiet__init__ a c [] kw self) = Raise e)
          <-> (exists e,
                  (quiet__init__ (base c) (list_to_map (zip (parameters c) vs)) self).1.1
                  = Raise e)).
Proof.
  split.
  - intros H.
    destruct (H ActionOther State {["colour" := VInt 1]} ∅) as [Hshim _]; [done|].
    destruct Hshim as [e He]; [by eexists|]. discriminate He.
  - intros H.
    destruct (H ActionError Number ∅ [VNone; VNone; VBool false] ∅) as [Hshim _];
      [reflexivity|].
    destruct Hshim as [e He]; [by eexists|]. discriminate He.
Qed.

(** The hypotheses of the amended C7 hold of [Checkbox(True, optional="yes")]
    against the sample base class, which refuses that [optional]. *)
Lemma call_raises_iff_component_raises_witness :
  ActionOther <> ActionError
  /\ bind_arguments (signature Checkbox) [VBool true] {["optional" := VStr "yes"]}
     = Return [VBool true; VNone; VStr "yes"]
  /\ (forall e : exn,
        outcome (call__init__under example__init__ ActionOther Checkbox
                   [VBool true] {["optional" := VStr "yes"]} ∅) = Raise e
        <-> (example__init__ (base Checkbox)
               (list_to_map (zip (parameters Checkbox)
                               [VBool true; VNone; VStr "yes"])) ∅).1.1
            = Raise e)
  /\ instance (call__init__under example__init__ ActionOther Checkbox
                 [VBool true] {["optional" := VStr "yes"]} ∅)
     = (example__init__ (base Checkbox)
          (list_to_map (zip (parameters Checkbox)
                          [VBool true; VNone; VStr "yes"])) ∅).1.2
  /\ warnings_of (events (call__init__under example__init__ ActionOther Checkbox
                            [VBool true] {["optional" := VStr "yes"]} ∅))
     = deprecation_warning Checkbox
         :: (example__init__ (base Checkbox)
               (list_to_map (zip (parameters Checkbox)
                               [VBool true; VNone; VStr "yes"])) ∅).2.
Proof.
  split; [discriminate|]. split; [reflexivity|].
  apply (call_raises_iff_component_raises example__init__ ActionOther Checkbox
           [VBool true] {["optional" := VStr "yes"]}
           [VBool true; VNone; VStr "yes"] ∅);
    [discriminate | reflexivity].
Defined.

(** The hypothesis of X9 holds of the sample template context, which is a
    dictionary; the instance has no [default]. *)
Lemma get_template_context_raises_iff_witness :
  (forall id : positive,
      (example_get_template_context components.State ∅).1.1 <> Return (VObject id))
  /\ (outcome (get_template_context example_get_template_context ∅)
        = Raise (Exception "AttributeError" "default")
      <-> ((∅ : gmap string value) !! "default" = None
           /\ Exception "AttributeError" "default"
              = Exception "AttributeError" "default")
          \/ (is_Some ((∅ : gmap string value) !! "default")
              /\ ((example_get_template_context components.State ∅).1.1
                    = Raise (Exception "AttributeError" "default")
                  \/ exists v : value,
                       (example_get_template_context components.State ∅).1.1
                         = Return v
                       /\ not_a_mapping v = true
                       /\ Exception "AttributeError" "default"
                          = Exception "TypeError" "object is not a mapping"))).
Proof.
  split; [intros id; discriminate|].
  apply (get_template_context_raises_iff example_get_template_context ∅
           (Exception "AttributeError" "default")).
  intros id; discriminate.
Defined.

(** Under the filter action ["error"], [Slider(1, label="s")] raises the
    warning and stops. *)
Example Slider_call_under_error_filter :
  call__init__under quiet__init__ ActionError Slider [VInt 1]
    {["label" := VStr "s"]} ∅
  = (Raise (Exception "DeprecationWarning" deprecation_message_component), ∅, []).
Proof. reflexivity. Qed.
